(** * Payment processing examples of the SOLID tutorials

    A shallow embedding of the TypeScript payment snippets of the
    Open/Closed tutorial ([Solid Principle/openClosed/index.md]) and of the
    Liskov-substitution tutorial (both its "violation" and its "compliant"
    listing), with the properties the design document states about them;
    and of the listing the Open/Closed tutorial starts from and the string
    validators of the Liskov tutorial, with properties read off the code.

    Conventions of the embedding:
    - a TypeScript [number] is an exact rational ([Q]) in the listings, whose
      properties here rest on comparisons and on the expressions the code
      itself evaluates; module [Binary64] repeats the gift card over binary64
      numbers, with rounding, NaN and the infinities, for the properties that
      depend on how the balance is computed;
    - a method body is a function from the receiver's fields and the console
      to a completion (a returned value or a thrown [Error]), the receiver's
      new fields and the new console;
    - [console.log] appends one line to the console; a template literal with
      one interpolated number is kept as its text and the number. *)

From Stdlib Require Import Floats.
From Stdlib Require Import QArith Lqa Lia List String Ascii Bool.
Import ListNotations.

Open Scope string_scope.
Open Scope list_scope.
Open Scope Q_scope.

(** ** Numbers *)

Definition number : Type := Q.

(** The comparison operators [<=], [>] of the snippets, as booleans. *)
Definition num_le (x y : number) : bool := Qle_bool x y.
Definition num_gt (x y : number) : bool := negb (Qle_bool x y).

(** ** Console and completions *)

Inductive LogLine : Type :=
| Msg (text : string)
| MsgNum (text : string) (n : number).

Definition Console : Type := list LogLine.

Inductive Completion (A : Type) : Type :=
| Return (a : A)
| Throw (message : string).
Arguments Return {A} a.
Arguments Throw {A} message.

(** A computation on a receiver with fields [T]. *)
Definition JS (T A : Type) : Type := T -> Console -> Completion A * T * Console.

Definition ret {T A} (a : A) : JS T A := fun self out => (Return a, self, out).

Definition bind {T A B} (m : JS T A) (k : A -> JS T B) : JS T B :=
  fun self out =>
    match m self out with
    | (Return a, self', out') => k a self' out'
    | (Throw e, self', out') => (Throw e, self', out')
    end.

Definition throw {T A} (message : string) : JS T A :=
  fun self out => (Throw message, self, out).

Definition log {T} (l : LogLine) : JS T unit :=
  fun self out => (Return tt, self, out ++ [l]).

Definition this {T} : JS T T := fun self out => (Return self, self, out).

Definition assign {T} (self' : T) : JS T unit :=
  fun _ out => (Return tt, self', out).

Notation "x <- m ;; k" := (bind m (fun x => k))
  (at level 61, m at next level, right associativity).
Notation "m ;;; k" := (bind m (fun _ => k))
  (at level 61, right associativity).

(** What a call left behind. *)
Definition completion {T A} (r : Completion A * T * Console) : Completion A :=
  fst (fst r).
Definition receiver {T A} (r : Completion A * T * Console) : T := snd (fst r).
Definition printed {T A} (r : Completion A * T * Console) : Console := snd r.


(** ** Open/Closed tutorial: the OCP-compliant listing *)

Module OCP.

(** [interface PaymentMethod] *)
Class PaymentMethod (T : Type) : Type := {
  processPayment : number -> JS T unit;
  validatePayment : number -> JS T bool
}.

Module CreditCardPayment.
Inductive t : Type := new.

Definition processPayment (amount : number) : JS t unit :=
  log (MsgNum "Processing credit card payment of $" amount).

Definition validatePayment (amount : number) : JS t bool :=
  ret (num_gt amount 0 && num_le amount 10000).
End CreditCardPayment.

Module PayPalPayment.
Inductive t : Type := new.

Definition processPayment (amount : number) : JS t unit :=
  log (MsgNum "Processing PayPal payment of $" amount).

Definition validatePayment (amount : number) : JS t bool :=
  ret (num_gt amount 0).
End PayPalPayment.

Module UPIPayment.
Inductive t : Type := new.

Definition processPayment (amount : number) : JS t unit :=
  log (MsgNum "Processing UPI payment of ₹" amount).

Definition validatePayment (amount : number) : JS t bool :=
  ret (num_gt amount 0 && num_le amount 100000).
End UPIPayment.

Module BitcoinPayment.
Inductive t : Type := new.

Definition processPayment (amount : number) : JS t unit :=
  log (MsgNum "Processing Bitcoin payment of ₿" (amount / 50000)).

Definition validatePayment (amount : number) : JS t bool :=
  ret (num_gt amount 0).
End BitcoinPayment.

#[export] Instance CreditCard_PaymentMethod : PaymentMethod CreditCardPayment.t :=
  {| processPayment := CreditCardPayment.processPayment;
     validatePayment := CreditCardPayment.validatePayment |}.
#[export] Instance PayPal_PaymentMethod : PaymentMethod PayPalPayment.t :=
  {| processPayment := PayPalPayment.processPayment;
     validatePayment := PayPalPayment.validatePayment |}.
#[export] Instance UPI_PaymentMethod : PaymentMethod UPIPayment.t :=
  {| processPayment := UPIPayment.processPayment;
     validatePayment := UPIPayment.validatePayment |}.
#[export] Instance Bitcoin_PaymentMethod : PaymentMethod BitcoinPayment.t :=
  {| processPayment := BitcoinPayment.processPayment;
     validatePayment := BitcoinPayment.validatePayment |}.

Module PaymentProcessor.
(** [process(method, amount)]: the receiver of the two calls is [method]. *)
Definition process {T} `{PaymentMethod T} (amount : number) : JS T bool :=
  valid <- validatePayment amount ;;
  if valid then processPayment amount ;;; ret true
  else ret false.
End PaymentProcessor.

Module Checkout.
Definition processPayment {T} `{PaymentMethod T} (amount : number) : JS T bool :=
  PaymentProcessor.process amount.
End Checkout.

(** The kinds the listing defines, to quantify over them. *)
Inductive Kind : Type := CreditCard | PayPal | UPI | Bitcoin.

Definition fields (k : Kind) : Type :=
  match k with
  | CreditCard => CreditCardPayment.t
  | PayPal => PayPalPayment.t
  | UPI => UPIPayment.t
  | Bitcoin => BitcoinPayment.t
  end.

Definition method (k : Kind) : PaymentMethod (fields k) :=
  match k with
  | CreditCard => CreditCard_PaymentMethod
  | PayPal => PayPal_PaymentMethod
  | UPI => UPI_PaymentMethod
  | Bitcoin => Bitcoin_PaymentMethod
  end.

Definition new (k : Kind) : fields k :=
  match k with
  | CreditCard => CreditCardPayment.new
  | PayPal => PayPalPayment.new
  | UPI => UPIPayment.new
  | Bitcoin => BitcoinPayment.new
  end.

(** [checkout.processPayment(new K(), amount)] on an empty console: the
    value it returns. *)
Definition checkout (k : Kind) (amount : number) : Completion bool :=
  completion (@Checkout.processPayment _ (method k) amount (new k) []).

(** The limit a kind's [validatePayment] compares the amount against, where
    it has one (the "CC limit" and "UPI limit" of the listing). *)
Definition ceiling (k : Kind) : option number :=
  match k with
  | CreditCard => Some 10000
  | UPI => Some 100000
  | PayPal | Bitcoin => None
  end.

Definition within_ceiling (k : Kind) (amount : number) : Prop :=
  match ceiling k with
  | Some c => amount <= c
  | None => True
  end.

Definition exceeds_ceiling (k : Kind) (amount : number) : Prop :=
  match ceiling k with
  | Some c => c < amount
  | None => False
  end.

(** The two validation errors the design document names. *)
Inductive ValidationError : Type := InvalidAmountError | LimitExceededError.

(** The design document's reading of [process]: some way [decode] of reading
    an error off the returned value tells the two causes apart. *)
Definition typed_validation_errors (decode : Completion bool -> option ValidationError) : Prop :=
  forall k amount,
    (amount <= 0 -> decode (checkout k amount) = Some InvalidAmountError) /\
    (exceeds_ceiling k amount -> decode (checkout k amount) = Some LimitExceededError).

End OCP.

(** ** Liskov tutorial: the listing that violates the principle *)

Module LSPViolation.

(** [abstract class PaymentMethod]: [processPayment] is abstract, [refund]
    and [calculateFees] have bodies a subclass may override. *)
Class PaymentMethod (T : Type) : Type := {
  processPayment : number -> JS T bool;
  refund : number -> JS T bool;
  calculateFees : number -> JS T number
}.

(** The bodies of the base class. *)
Module Base.
Definition refund {T} (amount : number) : JS T bool :=
  log (MsgNum "Refunding $" amount) ;;; ret true.

Definition calculateFees {T} (amount : number) : JS T number :=
  ret (amount * 0.03).
End Base.

Module CreditCardPayment.
Inductive t : Type := new.

Definition processPayment (amount : number) : JS t bool :=
  log (MsgNum "Processing credit card payment: $" amount) ;;; ret true.

Definition refund (amount : number) : JS t bool :=
  log (MsgNum "Credit card refund: $" amount) ;;; ret true.
End CreditCardPayment.

Module CashPayment.
Inductive t : Type := new.

Definition processPayment (amount : number) : JS t bool :=
  log (MsgNum "Processing cash payment: $" amount) ;;; ret true.

Definition refund (amount : number) : JS t bool :=
  throw "Cash payments cannot be refunded!".

Definition calculateFees (amount : number) : JS t number :=
  ret 0.
End CashPayment.

Module GiftCardPayment.
Record t : Type := { balance : number }.

Definition new : t := {| balance := 1000 |}.

Definition processPayment (amount : number) : JS t bool :=
  self <- this ;;
  if num_gt amount (balance self) then throw "Insufficient gift card balance!"
  else
    log (MsgNum "Processing gift card payment: $" amount) ;;;
    assign {| balance := balance self - amount |} ;;;
    ret true.
End GiftCardPayment.

#[export] Instance CreditCard_PaymentMethod : PaymentMethod CreditCardPayment.t :=
  {| processPayment := CreditCardPayment.processPayment;
     refund := CreditCardPayment.refund;
     calculateFees := Base.calculateFees |}.
#[export] Instance Cash_PaymentMethod : PaymentMethod CashPayment.t :=
  {| processPayment := CashPayment.processPayment;
     refund := CashPayment.refund;
     calculateFees := CashPayment.calculateFees |}.
#[export] Instance GiftCard_PaymentMethod : PaymentMethod GiftCardPayment.t :=
  {| processPayment := GiftCardPayment.processPayment;
     refund := Base.refund;
     calculateFees := Base.calculateFees |}.

Module PaymentProcessor.
Definition processWithRefund {T} `{PaymentMethod T} (amount : number) : JS T unit :=
  paid <- processPayment amount ;;
  if paid then
    log (Msg "Payment successful") ;;;
    refund (amount * 0.1) ;;;
    fees <- calculateFees amount ;;
    log (MsgNum "Fees: $" fees)
  else ret tt.
End PaymentProcessor.

End LSPViolation.

(** ** Liskov tutorial: the compliant listing *)

Module LSP.

(** [interface PaymentMethod]. [isRefundable] and [getPaymentType] return a
    literal in every class: they read the receiver and change nothing. *)
Class PaymentMethod (T : Type) : Type := {
  processPayment : number -> JS T bool;
  isRefundable : T -> bool;
  getPaymentType : T -> string
}.

(** What [interface RefundablePayment] and [interface FeeBasedPayment] add. *)
Class RefundablePayment (T : Type) : Type := {
  refund : number -> JS T bool
}.

Class FeeBasedPayment (T : Type) : Type := {
  calculateFees : number -> JS T number
}.

(** The members an object carries at run time: the processor holds it at
    type [PaymentMethod] and asks ['refund' in payment] and
    ['calculateFees' in payment]. *)
Record Members (T : Type) : Type := {
  as_PaymentMethod : PaymentMethod T;
  refund_in : option (RefundablePayment T);
  calculateFees_in : option (FeeBasedPayment T)
}.
Arguments as_PaymentMethod {T} _.
Arguments refund_in {T} _.
Arguments calculateFees_in {T} _.

Module CreditCardPayment.
Inductive t : Type := new.

Definition processPayment (amount : number) : JS t bool :=
  log (MsgNum "Processing credit card payment: $" amount) ;;; ret true.

Definition refund (amount : number) : JS t bool :=
  log (MsgNum "Credit card refund: $" amount) ;;; ret true.

Definition calculateFees (amount : number) : JS t number :=
  ret (amount * 0.03).

Definition isRefundable (self : t) : bool := true.

Definition getPaymentType (self : t) : string := "CreditCard".
End CreditCardPayment.

Module CashPayment.
Inductive t : Type := new.

Definition processPayment (amount : number) : JS t bool :=
  log (MsgNum "Processing cash payment: $" amount) ;;; ret true.

Definition isRefundable (self : t) : bool := false.

Definition getPaymentType (self : t) : string := "Cash".
End CashPayment.

Module GiftCardPayment.
Record t : Type := { balance : number }.

Definition new : t := {| balance := 1000 |}.

Definition processPayment (amount : number) : JS t bool :=
  if num_le amount 0 then ret false
  else
    self <- this ;;
    if num_gt amount (balance self) then ret false
    else
      log (MsgNum "Processing gift card payment: $" amount) ;;;
      assign {| balance := balance self - amount |} ;;;
      ret true.

Definition refund (amount : number) : JS t bool :=
  log (MsgNum "Gift card refund: $" amount) ;;;
  self <- this ;;
  assign {| balance := balance self + amount |} ;;;
  ret true.

Definition isRefundable (self : t) : bool := true.

Definition getPaymentType (self : t) : string := "GiftCard".
End GiftCardPayment.

Definition CreditCard_members : Members CreditCardPayment.t :=
  {| as_PaymentMethod :=
       {| processPayment := CreditCardPayment.processPayment;
          isRefundable := CreditCardPayment.isRefundable;
          getPaymentType := CreditCardPayment.getPaymentType |};
     refund_in := Some {| refund := CreditCardPayment.refund |};
     calculateFees_in := Some {| calculateFees := CreditCardPayment.calculateFees |} |}.

Definition Cash_members : Members CashPayment.t :=
  {| as_PaymentMethod :=
       {| processPayment := CashPayment.processPayment;
          isRefundable := CashPayment.isRefundable;
          getPaymentType := CashPayment.getPaymentType |};
     refund_in := None;
     calculateFees_in := None |}.

Definition GiftCard_members : Members GiftCardPayment.t :=
  {| as_PaymentMethod :=
       {| processPayment := GiftCardPayment.processPayment;
          isRefundable := GiftCardPayment.isRefundable;
          getPaymentType := GiftCardPayment.getPaymentType |};
     refund_in := Some {| refund := GiftCardPayment.refund |};
     calculateFees_in := None |}.

Module PaymentProcessor.
Definition processPayment {T} (payment : Members T) (amount : number) : JS T bool :=
  success <- @LSP.processPayment T (as_PaymentMethod payment) amount ;;
  (if success then
     self <- this ;;
     log (Msg (@getPaymentType T (as_PaymentMethod payment) self
               ++ " payment successful")%string) ;;;
     match calculateFees_in payment with
     | Some fee_based =>
         fees <- @calculateFees T fee_based amount ;;
         log (MsgNum "Fees: $" fees)
     | None => ret tt
     end
   else ret tt) ;;;
  ret success.

Definition processRefund {T} (payment : Members T) (amount : number) : JS T bool :=
  self <- this ;;
  if negb (@isRefundable T (as_PaymentMethod payment) self) then
    log (Msg (@getPaymentType T (as_PaymentMethod payment) self
              ++ " payments are not refundable")%string) ;;;
    ret false
  else
    match refund_in payment with
    | Some refundable => @refund T refundable amount
    | None => ret false
    end.
End PaymentProcessor.

(** The classes the listing defines, to quantify over them. *)
Inductive Kind : Type := CreditCard | Cash | GiftCard.

Definition fields (k : Kind) : Type :=
  match k with
  | CreditCard => CreditCardPayment.t
  | Cash => CashPayment.t
  | GiftCard => GiftCardPayment.t
  end.

Definition members (k : Kind) : Members (fields k) :=
  match k with
  | CreditCard => CreditCard_members
  | Cash => Cash_members
  | GiftCard => GiftCard_members
  end.

Definition new (k : Kind) : fields k :=
  match k with
  | CreditCard => CreditCardPayment.new
  | Cash => CashPayment.new
  | GiftCard => GiftCardPayment.new
  end.

(** [payment.processPayment(amount)] on an object of class [k]. *)
Definition call_processPayment (k : Kind) (amount : number) : JS (fields k) bool :=
  @processPayment (fields k) (as_PaymentMethod (members k)) amount.

(** The capabilities of the design document, read off the listing: a class
    is refundable when [isRefundable()] answers true, fee bearing when it
    has a [calculateFees] member, balance tracked when it declares a
    [balance] field. *)
Definition Refundable (k : Kind) (self : fields k) : bool :=
  @isRefundable _ (as_PaymentMethod (members k)) self.


Definition balance_of (k : Kind) : fields k -> option number :=
  match k with
  | GiftCard => fun self => Some (GiftCardPayment.balance self)
  | CreditCard | Cash => fun _ => None
  end.

Definition BalanceTracked (k : Kind) : bool :=
  match k with GiftCard => true | CreditCard | Cash => false end.

(** A caller's requests to the processor about one payment object, as in
    the usage lines that close the listing. *)
Inductive Request : Type :=
| Pay (amount : number)
| Refund (amount : number).

Definition serve {T} (payment : Members T) (r : Request) : JS T bool :=
  match r with
  | Pay amount => PaymentProcessor.processPayment payment amount
  | Refund amount => PaymentProcessor.processRefund payment amount
  end.

Fixpoint serve_all {T} (payment : Members T) (rs : list Request) : JS T (list bool) :=
  match rs with
  | [] => ret []
  | r :: rs' =>
      b <- serve payment r ;;
      bs <- serve_all payment rs' ;;
      ret (b :: bs)
  end.

(** The fees a console shows: the numbers of its ["Fees: $..."] lines. *)
Definition fees_reported (out : Console) : list number :=
  flat_map (fun l =>
              match l with
              | MsgNum text n => if String.eqb text "Fees: $" then [n] else []
              | Msg _ => []
              end) out.

End LSP.

(** ** Accounts of a series of requests (compliant Liskov listing) *)

Module Accounts.
Import LSP.

(** The fees a fee-based class shows for a series of requests: one per
    payment, none per refund. *)
Definition fees_due (rs : list Request) : list number :=
  flat_map (fun r => match r with Pay amount => [amount * 0.03] | Refund _ => [] end) rs.

End Accounts.

(** ** Open/Closed tutorial: the listing that violates the principle *)

Module NonOCP.

(** [obj.m(...)] on an object held in a local variable: the console is
    shared, the caller's fields are untouched, the local object is dropped. *)
Definition on_local {T U A} (obj : U) (m : JS U A) : JS T A :=
  fun self out =>
    match m obj out with
    | (c, _, out') => (c, self, out')
    end.

Module PaymentProcessor.
Inductive t : Type := new.

Definition processCreditCard (amount : number) : JS t unit :=
  log (MsgNum "Processing Credit Card payment: $" amount).

Definition processPayPal (amount : number) : JS t unit :=
  log (MsgNum "Processing PayPal payment: $" amount).

Definition processUPI (amount : number) : JS t unit :=
  log (MsgNum "Processing UPI payment: ₹" amount).
End PaymentProcessor.

Module Checkout.
Inductive t : Type := new.

Definition processPayment (type : string) (amount : number) : JS t unit :=
  let processor := PaymentProcessor.new in
  if String.eqb type "CC" then
    on_local processor (PaymentProcessor.processCreditCard amount)
  else if String.eqb type "PayPal" then
    on_local processor (PaymentProcessor.processPayPal amount)
  else if String.eqb type "UPI" then
    on_local processor (PaymentProcessor.processUPI amount)
  else ret tt.
End Checkout.

End NonOCP.

(** ** Liskov tutorial: the validators of "Preconditions cannot be strengthened"

    A string is the sequence of its code units, [length] their number. *)

Module Validators.

Definition length (input : string) : number :=
  inject_Z (Z.of_nat (String.length input)).

(** [input.includes(search)]: [search] occurs somewhere in [input]. *)
Fixpoint includes (input search : string) : bool :=
  String.prefix search input ||
  match input with
  | EmptyString => false
  | String _ rest => includes rest search
  end.

Module BaseValidator.
Definition validate (input : string) : bool :=
  num_gt (length input) 0.
End BaseValidator.

(** The listing marked "Bad - child is more restrictive". *)
Module Bad.
Module EmailValidator.
Definition validate (input : string) : bool :=
  includes input "@" && num_gt (length input) 5.
End EmailValidator.
End Bad.

(** The listing marked "Good - maintain or weaken preconditions". *)
Module Good.
Module EmailValidator.
Definition isValidEmail (input : string) : bool :=
  includes input "@".

Definition validate (input : string) : bool :=
  num_gt (length input) 0 && isValidEmail input.
End EmailValidator.
End Good.

End Validators.

(** ** The gift card over binary64 numbers

    The gift card of the compliant listing once more, its numbers now the
    binary64 numbers of the language with their rounding, NaN and
    infinities; for the properties that depend on how the balance is
    computed. Method bodies pass the receiver and the console explicitly. *)

Module Binary64.

Definition number : Type := float.

(** [x <= y] and [x > y]: both are false when an operand is NaN. *)
Definition num_le (x y : number) : bool := PrimFloat.leb x y.
Definition num_gt (x y : number) : bool := PrimFloat.ltb y x.

Inductive LogLine : Type :=
| Msg (text : string)
| MsgNum (text : string) (n : number).

Definition Console : Type := list LogLine.

Module GiftCardPayment.
Record t : Type := { balance : number }.

Definition new : t := {| balance := 1000%float |}.

Definition processPayment (amount : number) (self : t) (out : Console)
  : Completion bool * t * Console :=
  if num_le amount 0%float then (Return false, self, out)
  else if num_gt amount (balance self) then (Return false, self, out)
  else
    (Return true,
     {| balance := PrimFloat.sub (balance self) amount |},
     out ++ [MsgNum "Processing gift card payment: $" amount]).

Definition refund (amount : number) (self : t) (out : Console)
  : Completion bool * t * Console :=
  (Return true,
   {| balance := PrimFloat.add (balance self) amount |},
   out ++ [MsgNum "Gift card refund: $" amount]).
End GiftCardPayment.

(** The gift card of the listing that violates the Liskov principle. *)
Module LSPViolation.
Module GiftCardPayment.
Record t : Type := { balance : number }.

Definition new : t := {| balance := 1000%float |}.

Definition processPayment (amount : number) (self : t) (out : Console)
  : Completion bool * t * Console :=
  if num_gt amount (balance self) then
    (Throw "Insufficient gift card balance!", self, out)
  else
    (Return true,
     {| balance := PrimFloat.sub (balance self) amount |},
     out ++ [MsgNum "Processing gift card payment: $" amount]).
End GiftCardPayment.
End LSPViolation.

(** The card a call left behind. *)
Definition card {A} (r : A * GiftCardPayment.t * Console) : GiftCardPayment.t :=
  snd (fst r).

(** Calls on one gift card, made one after the other: [processPayment] and
    [refund] are the two methods through which the balance is reached. *)
Inductive Call : Type :=
| ProcessPayment (amount : number)
| Refund (amount : number).

Definition call (c : Call) (self : GiftCardPayment.t) (out : Console)
  : Completion bool * GiftCardPayment.t * Console :=
  match c with
  | ProcessPayment amount => GiftCardPayment.processPayment amount self out
  | Refund amount => GiftCardPayment.refund amount self out
  end.

Fixpoint call_all (cs : list Call) (self : GiftCardPayment.t) (out : Console)
  : list (Completion bool) * GiftCardPayment.t * Console :=
  match cs with
  | [] => ([], self, out)
  | c :: cs' =>
      let '(r, self1, out1) := call c self out in
      let '(rs, self2, out2) := call_all cs' self1 out1 in
      (r :: rs, self2, out2)
  end.

(** The calls under which the balance stays non-negative: a payment of an
    amount below [Infinity] (which NaN and [Infinity] are not), a refund of
    an amount that is not negative (which NaN is not). *)
Definition admissible (c : Call) : Prop :=
  match c with
  | ProcessPayment amount => PrimFloat.ltb amount infinity = true
  | Refund amount => PrimFloat.leb 0%float amount = true
  end.

End Binary64.

(** [0 <= x] on the specification of binary64 numbers. *)
Definition SFnonneg (x : spec_float) : bool := SFleb (S754_zero false) x.

(** * Properties *)

(** ** Comparisons *)

Lemma num_le_true (x y : number) : num_le x y = true <-> x <= y.
Proof. apply Qle_bool_iff. Qed.

Lemma num_le_false (x y : number) : num_le x y = false <-> y < x.
Proof.
  unfold num_le. split; intro H.
  - apply Qnot_le_lt. intro Hle. apply Qle_bool_iff in Hle. congruence.
  - destruct (Qle_bool x y) eqn:E; [| reflexivity].
    apply Qle_bool_iff in E. lra.
Qed.

Lemma num_gt_true (x y : number) : num_gt x y = true <-> y < x.
Proof.
  unfold num_gt. rewrite negb_true_iff. apply num_le_false.
Qed.

Lemma num_gt_false (x y : number) : num_gt x y = false <-> x <= y.
Proof.
  unfold num_gt. rewrite negb_false_iff. apply num_le_true.
Qed.

(** Unfolds the plumbing of [JS], leaving the tests of the body. *)
Ltac js := cbv [bind ret this assign log throw completion receiver printed].

(** ** The gift card of the compliant listing *)

Section GiftCard.
Import LSP.
Import GiftCardPayment.

(** The three ways [processPayment] ends. *)
Lemma GiftCard_processPayment_nonpositive (self : t) amount out :
  amount <= 0 -> processPayment amount self out = (Return false, self, out).
Proof.
  intro H. apply num_le_true in H. unfold processPayment. now rewrite H.
Qed.

Lemma GiftCard_processPayment_insufficient (self : t) amount out :
  balance self < amount -> processPayment amount self out = (Return false, self, out).
Proof.
  intro H. apply num_gt_true in H. unfold processPayment.
  destruct (num_le amount 0); [reflexivity |]. js. now rewrite H.
Qed.

Lemma GiftCard_processPayment_debit (self : t) amount out :
  0 < amount -> amount <= balance self ->
  processPayment amount self out =
    (Return true, {| balance := balance self - amount |},
     out ++ [MsgNum "Processing gift card payment: $" amount]).
Proof.
  intros Hpos Hle. apply num_le_false in Hpos. apply num_gt_false in Hle.
  unfold processPayment. rewrite Hpos. js. now rewrite Hle.
Qed.

End GiftCard.

(** C9. [GiftCardPayment.processPayment] called with an amount that is zero or
    negative, or greater than the current balance, returns [false] and leaves
    the balance (and the console) exactly as they were: the failure path
    debits nothing. *)
Theorem GiftCard_rejected_payment_changes_nothing
    (self : LSP.GiftCardPayment.t) (amount : number) (out : Console) :
  amount <= 0 \/ LSP.GiftCardPayment.balance self < amount ->
  LSP.GiftCardPayment.processPayment amount self out = (Return false, self, out).
Proof.
  intros [H | H].
  - now apply GiftCard_processPayment_nonpositive.
  - now apply GiftCard_processPayment_insufficient.
Qed.

Lemma GiftCard_rejected_payment_changes_nothing_witness :
  (1500 <= 0 \/ LSP.GiftCardPayment.balance LSP.GiftCardPayment.new < 1500) /\
  LSP.GiftCardPayment.processPayment 1500 LSP.GiftCardPayment.new [] =
    (Return false, LSP.GiftCardPayment.new, []).
Proof.
  split.
  - right. reflexivity.
  - apply (GiftCard_rejected_payment_changes_nothing LSP.GiftCardPayment.new 1500 []).
    right. reflexivity.
Defined.

(** ** Refunds gated by [isRefundable] *)

(** C2. Whatever the class of the payment object, its fields and the amount:
    when [isRefundable()] answers [false], [processRefund] returns the value
    [false] (it throws nothing), prints that payments of that type are not
    refundable, leaves the object as it was and never reaches a [refund]
    member. The processor learns this from [isRefundable()] alone: the
    statement holds for every object, so the class is not inspected. *)
Theorem processRefund_declines_without_capability
    (T : Type) (payment : LSP.Members T) (amount : number) (self : T) (out : Console) :
  @LSP.isRefundable T (LSP.as_PaymentMethod payment) self = false ->
  LSP.PaymentProcessor.processRefund payment amount self out =
    (Return false, self,
     out ++ [Msg (@LSP.getPaymentType T (LSP.as_PaymentMethod payment) self
                  ++ " payments are not refundable")%string]).
Proof.
  intro H. unfold LSP.PaymentProcessor.processRefund. js. now rewrite H.
Qed.

Lemma processRefund_declines_without_capability_witness :
  LSP.CashPayment.isRefundable LSP.CashPayment.new = false /\
  LSP.PaymentProcessor.processRefund LSP.Cash_members 50 LSP.CashPayment.new [] =
    (Return false, LSP.CashPayment.new, [Msg "Cash payments are not refundable"]).
Proof.
  split.
  - reflexivity.
  - apply (processRefund_declines_without_capability
             LSP.CashPayment.t LSP.Cash_members 50 LSP.CashPayment.new []).
    reflexivity.
Defined.

(** ** Validation in the Open/Closed listing *)

Section Validation.
Import OCP.

(** [process] returns what [validatePayment] answered. *)
Lemma checkout_CreditCard amount :
  checkout CreditCard amount = Return (num_gt amount 0 && num_le amount 10000).
Proof.
  unfold checkout, Checkout.processPayment, PaymentProcessor.process. simpl.
  unfold CreditCardPayment.validatePayment. js.
  now destruct (num_gt amount 0 && num_le amount 10000).
Qed.

Lemma checkout_UPI amount :
  checkout UPI amount = Return (num_gt amount 0 && num_le amount 100000).
Proof.
  unfold checkout, Checkout.processPayment, PaymentProcessor.process. simpl.
  unfold UPIPayment.validatePayment. js.
  now destruct (num_gt amount 0 && num_le amount 100000).
Qed.

Lemma checkout_PayPal amount : checkout PayPal amount = Return (num_gt amount 0).
Proof.
  unfold checkout, Checkout.processPayment, PaymentProcessor.process. simpl.
  unfold PayPalPayment.validatePayment. js.
  now destruct (num_gt amount 0).
Qed.

Lemma checkout_Bitcoin amount : checkout Bitcoin amount = Return (num_gt amount 0).
Proof.
  unfold checkout, Checkout.processPayment, PaymentProcessor.process. simpl.
  unfold BitcoinPayment.validatePayment. js.
  now destruct (num_gt amount 0).
Qed.

Lemma checkout_accepts_iff k amount :
  checkout k amount = Return true <-> 0 < amount /\ within_ceiling k amount.
Proof.
  destruct k; unfold within_ceiling; simpl;
    rewrite ?checkout_CreditCard, ?checkout_UPI, ?checkout_PayPal, ?checkout_Bitcoin.
  - split.
    + intro H. injection H as H. apply andb_true_iff in H as [H1 H2].
      split; [now apply num_gt_true | now apply num_le_true].
    + intros [H1 H2]. apply num_gt_true in H1. apply num_le_true in H2.
      now rewrite H1, H2.
  - split.
    + intro H. injection H as H. split; [now apply num_gt_true | exact I].
    + intros [H1 _]. apply num_gt_true in H1. now rewrite H1.
  - split.
    + intro H. injection H as H. apply andb_true_iff in H as [H1 H2].
      split; [now apply num_gt_true | now apply num_le_true].
    + intros [H1 H2]. apply num_gt_true in H1. apply num_le_true in H2.
      now rewrite H1, H2.
  - split.
    + intro H. injection H as H. split; [now apply num_gt_true | exact I].
    + intros [H1 _]. apply num_gt_true in H1. now rewrite H1.
Qed.

Lemma checkout_returns_bool k amount :
  checkout k amount = Return true \/ checkout k amount = Return false.
Proof.
  destruct k;
    rewrite ?checkout_CreditCard, ?checkout_UPI, ?checkout_PayPal, ?checkout_Bitcoin;
    match goal with |- Return ?b = _ \/ _ => destruct b end; auto.
Qed.

Lemma checkout_rejects k amount :
  ~ (0 < amount /\ within_ceiling k amount) -> checkout k amount = Return false.
Proof.
  intro H. destruct (checkout_returns_bool k amount) as [Ht | Hf]; [| exact Hf].
  apply checkout_accepts_iff in Ht. contradiction.
Qed.

End Validation.

(** C5, as the design document words it, fails: [process] answers the same
    [false] to an amount of 0 and to an amount above the credit-card limit,
    so nothing read off its result can name [InvalidAmountError] for the one
    and [LimitExceededError] for the other. *)
Lemma process_does_not_type_its_failures :
  ~ exists decode, OCP.typed_validation_errors decode.
Proof.
  intros [decode H].
  destruct (H OCP.CreditCard 0) as [Hinvalid _].
  destruct (H OCP.CreditCard 10001) as [_ Hlimit].
  assert (E0 : OCP.checkout OCP.CreditCard 0 = Return false) by reflexivity.
  assert (E1 : OCP.checkout OCP.CreditCard 10001 = Return false) by reflexivity.
  rewrite E0 in Hinvalid. rewrite E1 in Hlimit.
  assert (Hi : decode (Return false) = Some OCP.InvalidAmountError).
  { apply Hinvalid. discriminate. }
  assert (Hl : decode (Return false) = Some OCP.LimitExceededError).
  { apply Hlimit. reflexivity. }
  congruence.
Qed.

(** C5, amended. For every kind of the Open/Closed listing, [process] returns
    [true] exactly when the amount is positive and no greater than the kind's
    limit (10000 for credit cards, 100000 for UPI, none for PayPal and
    Bitcoin), and returns the plain boolean [false] both when the amount is
    zero or negative and when it exceeds the limit. *)
Theorem process_accepts_exactly_valid_amounts (k : OCP.Kind) (amount : number) :
  (OCP.checkout k amount = Return true <-> 0 < amount /\ OCP.within_ceiling k amount) /\
  (amount <= 0 -> OCP.checkout k amount = Return false) /\
  (OCP.exceeds_ceiling k amount -> OCP.checkout k amount = Return false).
Proof.
  split; [apply checkout_accepts_iff |]. split.
  - intro H. apply checkout_rejects. intros [Hpos _]. lra.
  - intro H. apply checkout_rejects. intros [_ Hin].
    unfold OCP.exceeds_ceiling in H. unfold OCP.within_ceiling in Hin.
    destruct (OCP.ceiling k); [lra | exact H].
Qed.

Lemma process_accepts_exactly_valid_amounts_witness :
  OCP.checkout OCP.UPI 500 = Return true /\
  OCP.checkout OCP.UPI (-5) = Return false /\
  OCP.checkout OCP.UPI 100001 = Return false.
Proof.
  split; [| split].
  - apply (proj1 (process_accepts_exactly_valid_amounts OCP.UPI 500)).
    split; [reflexivity | discriminate].
  - apply (proj1 (proj2 (process_accepts_exactly_valid_amounts OCP.UPI (-5)))).
    discriminate.
  - apply (proj2 (proj2 (process_accepts_exactly_valid_amounts OCP.UPI 100001))).
    reflexivity.
Defined.

(** ** The processor of the compliant listing *)

Section Processor.
Import LSP.

(** With no [calculateFees] member the processor adds one line to a payment
    that succeeded and nothing to one that did not. *)
Lemma processPayment_without_fees T (payment : Members T) amount self out :
  calculateFees_in payment = None ->
  PaymentProcessor.processPayment payment amount self out =
    match @processPayment T (as_PaymentMethod payment) amount self out with
    | (Return true, self', out') =>
        (Return true, self',
         out' ++ [Msg (@getPaymentType T (as_PaymentMethod payment) self'
                       ++ " payment successful")%string])
    | other => other
    end.
Proof.
  intro H. unfold PaymentProcessor.processPayment. js. rewrite H.
  destruct (processPayment amount self out) as [[[[|] | e] self'] out']; reflexivity.
Qed.

Lemma fees_reported_app out1 out2 :
  fees_reported (out1 ++ out2) = fees_reported out1 ++ fees_reported out2.
Proof. unfold fees_reported. apply flat_map_app. Qed.

Lemma processPayment_CreditCard amount self out :
  PaymentProcessor.processPayment CreditCard_members amount self out =
    (Return true, self,
     ((out ++ [MsgNum "Processing credit card payment: $" amount])
        ++ [Msg "CreditCard payment successful"])
        ++ [MsgNum "Fees: $" (amount * 0.03)]).
Proof. reflexivity. Qed.

Lemma processPayment_Cash amount self out :
  PaymentProcessor.processPayment Cash_members amount self out =
    (Return true, self,
     (out ++ [MsgNum "Processing cash payment: $" amount])
        ++ [Msg "Cash payment successful"]).
Proof. reflexivity. Qed.

Lemma processPayment_GiftCard amount self out :
  PaymentProcessor.processPayment GiftCard_members amount self out =
    if num_le amount 0 || num_gt amount (GiftCardPayment.balance self)
    then (Return false, self, out)
    else (Return true,
          {| GiftCardPayment.balance := GiftCardPayment.balance self - amount |},
          (out ++ [MsgNum "Processing gift card payment: $" amount])
             ++ [Msg "GiftCard payment successful"]).
Proof.
  rewrite processPayment_without_fees by reflexivity. simpl.
  unfold GiftCardPayment.processPayment.
  destruct (num_le amount 0); simpl; [reflexivity |].
  js. now destruct (num_gt amount (GiftCardPayment.balance self)).
Qed.

Lemma processRefund_CreditCard amount self out :
  PaymentProcessor.processRefund CreditCard_members amount self out =
    (Return true, self, out ++ [MsgNum "Credit card refund: $" amount]).
Proof. reflexivity. Qed.

Lemma processRefund_GiftCard amount self out :
  PaymentProcessor.processRefund GiftCard_members amount self out =
    (Return true,
     {| GiftCardPayment.balance := GiftCardPayment.balance self + amount |},
     out ++ [MsgNum "Gift card refund: $" amount]).
Proof. reflexivity. Qed.

(** Neither request to the processor throws, whatever the class. *)
Lemma processPayment_returns k (self : fields k) amount out :
  exists b, completion (PaymentProcessor.processPayment (members k) amount self out) = Return b.
Proof.
  destruct k; simpl in *.
  - rewrite processPayment_CreditCard. now exists true.
  - rewrite processPayment_Cash. now exists true.
  - rewrite processPayment_GiftCard.
    destruct (num_le amount 0 || num_gt amount (GiftCardPayment.balance self));
      [now exists false | now exists true].
Qed.

Lemma processRefund_returns k (self : fields k) amount out :
  exists b, completion (PaymentProcessor.processRefund (members k) amount self out) = Return b.
Proof.
  destruct k; simpl in *.
  - rewrite processRefund_CreditCard. now exists true.
  - now exists false.
  - rewrite processRefund_GiftCard. now exists true.
Qed.

End Processor.

(** C4, as the design document words it, fails on the listing that violates
    the principle: [processWithRefund] on a cash payment lets the [Error] of
    [CashPayment.refund] out to its caller. *)
Lemma processWithRefund_cash_throws :
  completion
    (@LSPViolation.PaymentProcessor.processWithRefund
       LSPViolation.CashPayment.t LSPViolation.Cash_PaymentMethod
       100 LSPViolation.CashPayment.new [])
  = Throw "Cash payments cannot be refunded!".
Proof. reflexivity. Qed.

(** C4, amended. In the compliant listings no request to a processor throws:
    for every kind of the Open/Closed listing [process] returns a boolean,
    and for every class of the compliant Liskov listing, every state of the
    object and every amount, [processPayment] and [processRefund] return a
    boolean; a failure is the returned value [false]. The listing written to
    violate the principle does throw: [processWithRefund] throws on a cash
    payment for every amount, and on a gift card whenever the amount exceeds
    the balance. *)
Theorem compliant_processors_return :
  (forall (k : OCP.Kind) (amount : number),
      OCP.checkout k amount = Return true \/ OCP.checkout k amount = Return false) /\
  (forall (k : LSP.Kind) (self : LSP.fields k) (amount : number) (out : Console),
      (exists b, completion (LSP.PaymentProcessor.processPayment (LSP.members k) amount self out)
                 = Return b) /\
      (exists b, completion (LSP.PaymentProcessor.processRefund (LSP.members k) amount self out)
                 = Return b)) /\
  (forall (amount : number) (self : LSPViolation.CashPayment.t) (out : Console),
      completion
        (@LSPViolation.PaymentProcessor.processWithRefund
           LSPViolation.CashPayment.t LSPViolation.Cash_PaymentMethod amount self out)
      = Throw "Cash payments cannot be refunded!") /\
  (forall (amount : number) (self : LSPViolation.GiftCardPayment.t) (out : Console),
      LSPViolation.GiftCardPayment.balance self < amount ->
      completion
        (@LSPViolation.PaymentProcessor.processWithRefund
           LSPViolation.GiftCardPayment.t LSPViolation.GiftCard_PaymentMethod amount self out)
      = Throw "Insufficient gift card balance!").
Proof.
  split; [apply checkout_returns_bool |].
  split; [| split].
  - intros k self amount out. split.
    + apply processPayment_returns.
    + apply processRefund_returns.
  - reflexivity.
  - intros amount self out H. apply num_gt_true in H.
    unfold LSPViolation.PaymentProcessor.processWithRefund. simpl.
    unfold LSPViolation.GiftCardPayment.processPayment. js. now rewrite H.
Qed.

Lemma compliant_processors_return_witness :
  (exists b, completion
               (LSP.PaymentProcessor.processRefund LSP.Cash_members 50 LSP.CashPayment.new [])
             = Return b) /\
  completion
    (@LSPViolation.PaymentProcessor.processWithRefund
       LSPViolation.GiftCardPayment.t LSPViolation.GiftCard_PaymentMethod
       1500 LSPViolation.GiftCardPayment.new [])
  = Throw "Insufficient gift card balance!".
Proof.
  destruct compliant_processors_return as (_ & Hlsp & _ & Hgift).
  split.
  - exact (proj2 (Hlsp LSP.Cash LSP.CashPayment.new 50 [])).
  - apply Hgift. reflexivity.
Defined.

(** ** Payments that succeed *)

(** C6, as the design document words it, fails: the gift card has no limit of
    its own, yet a positive amount above its balance is refused. *)
Lemma GiftCard_payment_above_balance_refused :
  0 < 1500 /\
  LSP.PaymentProcessor.processPayment LSP.GiftCard_members 1500 LSP.GiftCardPayment.new [] =
    (Return false, LSP.GiftCardPayment.new, []).
Proof. split; reflexivity. Qed.

(** C6, amended. A positive amount within the kind's limit is processed
    successfully by every kind of the Open/Closed listing; in the compliant
    Liskov listing a positive amount is processed successfully by every class
    provided, for the gift card, that it does not exceed the balance, and the
    gift card's balance afterwards is the balance before minus the amount. *)
Theorem valid_payment_succeeds :
  (forall (k : OCP.Kind) (amount : number),
      0 < amount -> OCP.within_ceiling k amount -> OCP.checkout k amount = Return true) /\
  (forall (k : LSP.Kind) (self : LSP.fields k) (amount : number) (out : Console),
      0 < amount ->
      (forall b, LSP.balance_of k self = Some b -> amount <= b) ->
      let r := LSP.PaymentProcessor.processPayment (LSP.members k) amount self out in
      completion r = Return true /\
      LSP.balance_of k (receiver r)
      = option_map (fun b => b - amount) (LSP.balance_of k self)).
Proof.
  split.
  - intros k amount Hpos Hin. apply checkout_accepts_iff. now split.
  - intros k self amount out Hpos Hbal. destruct k; simpl in *.
    + split; reflexivity.
    + split; reflexivity.
    + specialize (Hbal _ eq_refl).
      rewrite processPayment_GiftCard.
      apply num_le_false in Hpos. apply num_gt_false in Hbal.
      rewrite Hpos, Hbal. split; reflexivity.
Qed.

Lemma valid_payment_succeeds_witness :
  OCP.checkout OCP.CreditCard 10000 = Return true /\
  completion
    (LSP.PaymentProcessor.processPayment LSP.GiftCard_members 400 LSP.GiftCardPayment.new [])
  = Return true /\
  LSP.GiftCardPayment.balance
    (receiver
       (LSP.PaymentProcessor.processPayment LSP.GiftCard_members 400 LSP.GiftCardPayment.new []))
  = 1000 - 400.
Proof.
  destruct valid_payment_succeeds as [Hocp Hlsp].
  split.
  - apply (Hocp OCP.CreditCard 10000); [reflexivity | discriminate].
  - assert (Hb : forall b, LSP.balance_of LSP.GiftCard LSP.GiftCardPayment.new = Some b ->
                           400 <= b).
    { intros b E. injection E as <-. discriminate. }
    destruct (Hlsp LSP.GiftCard LSP.GiftCardPayment.new 400 [] eq_refl Hb) as [Hc Hr].
    split; [exact Hc |].
    exact (f_equal (fun o => match o with Some b => b | None => 0 end) Hr).
Defined.

(** C8. A class without a balance never refuses a payment: [processPayment]
    of every kind of the Open/Closed listing completes, and that of the credit
    card and of cash returns [true] for every amount. [processPayment] never
    throws, and when it refuses a positive amount the class is the balance
    tracked one (the gift card) and the amount exceeds its balance. *)
Theorem only_a_short_balance_refuses_a_valid_payment :
  (forall (k : OCP.Kind) (self : OCP.fields k) (amount : number) (out : Console),
      completion (@OCP.processPayment (OCP.fields k) (OCP.method k) amount self out)
      = Return tt) /\
  (forall (k : LSP.Kind) (self : LSP.fields k) (amount : number) (out : Console),
      LSP.BalanceTracked k = false ->
      completion (LSP.call_processPayment k amount self out) = Return true) /\
  (forall (k : LSP.Kind) (self : LSP.fields k) (amount : number) (out : Console),
      completion (LSP.call_processPayment k amount self out) = Return true \/
      completion (LSP.call_processPayment k amount self out) = Return false) /\
  (forall (k : LSP.Kind) (self : LSP.fields k) (amount : number) (out : Console),
      0 < amount ->
      completion (LSP.call_processPayment k amount self out) = Return false ->
      LSP.BalanceTracked k = true /\
      exists b, LSP.balance_of k self = Some b /\ b < amount).
Proof.
  split; [| split; [| split]].
  - intros k self amount out. destruct k; reflexivity.
  - intros k self amount out H. destruct k; try discriminate; reflexivity.
  - intros k self amount out. destruct k; simpl in *; auto.
    unfold LSP.call_processPayment. simpl. unfold LSP.GiftCardPayment.processPayment.
    destruct (num_le amount 0); [now right |]. js.
    destruct (num_gt amount (LSP.GiftCardPayment.balance self)); [now right | now left].
  - intros k self amount out Hpos Hfail. destruct k; simpl in *; try discriminate.
    split; [reflexivity |]. exists (LSP.GiftCardPayment.balance self).
    split; [reflexivity |].
    destruct (Qlt_le_dec (LSP.GiftCardPayment.balance self) amount) as [Hlt | Hle];
      [exact Hlt |].
    unfold LSP.call_processPayment in Hfail. simpl in Hfail.
    rewrite (GiftCard_processPayment_debit self amount out Hpos Hle) in Hfail.
    discriminate.
Qed.

Lemma only_a_short_balance_refuses_a_valid_payment_witness :
  completion (LSP.call_processPayment LSP.Cash 50 LSP.CashPayment.new []) = Return true /\
  (LSP.BalanceTracked LSP.GiftCard = true /\
   exists b, LSP.balance_of LSP.GiftCard LSP.GiftCardPayment.new = Some b /\ b < 1500).
Proof.
  destruct only_a_short_balance_refuses_a_valid_payment as (_ & Hfree & _ & Hshort).
  split.
  - apply Hfree. reflexivity.
  - apply (Hshort LSP.GiftCard LSP.GiftCardPayment.new 1500 []); reflexivity.
Defined.

(** ** Fees *)



(** ** Sequences of requests on one gift card *)

Section Requests.
Import LSP.

Lemma serve_all_cons T (payment : Members T) r rs self out :
  serve_all payment (r :: rs) self out =
    match serve payment r self out with
    | (Return b, self1, out1) =>
        match serve_all payment rs self1 out1 with
        | (Return bs, self2, out2) => (Return (b :: bs), self2, out2)
        | (Throw e, self2, out2) => (Throw e, self2, out2)
        end
    | (Throw e, self1, out1) => (Throw e, self1, out1)
    end.
Proof. reflexivity. Qed.

Lemma refunds_CreditCard amounts self out :
  completion (serve_all CreditCard_members (map Refund amounts) self out)
  = Return (map (fun _ => true) amounts).
Proof.
  revert self out. induction amounts as [| a amounts IH]; intros self out.
  - reflexivity.
  - simpl map. rewrite serve_all_cons. simpl serve.
    rewrite processRefund_CreditCard.
    specialize (IH self (out ++ [MsgNum "Credit card refund: $" a])).
    destruct (serve_all _ _ _ _) as [[c s] o]. unfold completion in *. simpl in *.
    now subst c.
Qed.

Lemma refunds_GiftCard amounts self out :
  completion (serve_all GiftCard_members (map Refund amounts) self out)
  = Return (map (fun _ => true) amounts) /\
  GiftCardPayment.balance
    (receiver (serve_all GiftCard_members (map Refund amounts) self out))
  = fold_left Qplus amounts (GiftCardPayment.balance self).
Proof.
  revert self out. induction amounts as [| a amounts IH]; intros self out.
  - split; reflexivity.
  - simpl map. rewrite serve_all_cons. simpl serve.
    rewrite processRefund_GiftCard.
    specialize (IH {| GiftCardPayment.balance := GiftCardPayment.balance self + a |}
                   (out ++ [MsgNum "Gift card refund: $" a])).
    destruct (serve_all _ _ _ _) as [[c s] o]. unfold completion, receiver in *.
    simpl in *. destruct IH as [-> IH]. split; [reflexivity | exact IH].
Qed.

End Requests.

(** C1, as the design document words it, fails: on a new gift card a payment
    of 400, a refund of 400 and a further refund of 100 all return [true];
    500 has then been refunded against 400 paid, and the balance is 1100. *)
Lemma second_refund_succeeds :
  LSP.serve_all LSP.GiftCard_members
    [LSP.Pay 400; LSP.Refund 400; LSP.Refund 100] LSP.GiftCardPayment.new []
  = (Return [true; true; true],
     {| LSP.GiftCardPayment.balance := 1100 |},
     [MsgNum "Processing gift card payment: $" 400;
      Msg "GiftCard payment successful";
      MsgNum "Gift card refund: $" 400;
      MsgNum "Gift card refund: $" 100]).
Proof. reflexivity. Qed.

(** C1, amended. On a refundable object (credit card or gift card)
    [processRefund] returns [true] every time, for any amount and whatever
    was refunded before: no refund is remembered, compared with a payment or
    refused as a duplicate. Each refund adds its amount to a gift card's
    balance, so after any series of refunds the balance is the balance before
    plus all the amounts. *)
Theorem refund_succeeds_every_time
    (k : LSP.Kind) (self : LSP.fields k) (amounts : list number) (out : Console) :
  LSP.Refundable k self = true ->
  completion (LSP.serve_all (LSP.members k) (map LSP.Refund amounts) self out)
  = Return (map (fun _ => true) amounts) /\
  LSP.balance_of k
    (receiver (LSP.serve_all (LSP.members k) (map LSP.Refund amounts) self out))
  = option_map (fold_left Qplus amounts) (LSP.balance_of k self).
Proof.
  intro H. destruct k; simpl in *; try discriminate.
  - split; [apply refunds_CreditCard | reflexivity].
  - destruct (refunds_GiftCard amounts self out) as [Hc Hb].
    split; [exact Hc | now rewrite Hb].
Qed.

Lemma refund_succeeds_every_time_witness :
  LSP.Refundable LSP.GiftCard LSP.GiftCardPayment.new = true /\
  completion
    (LSP.serve_all LSP.GiftCard_members
       (map LSP.Refund [400; 100; 100]) LSP.GiftCardPayment.new [])
  = Return [true; true; true].
Proof.
  split; [reflexivity |].
  exact (proj1 (refund_succeeds_every_time
                  LSP.GiftCard LSP.GiftCardPayment.new [400; 100; 100] [] eq_refl)).
Defined.

(** * Further properties of the listings *)

(** ** The checkout of the Open/Closed listing *)

Section CheckoutFacts.
Import OCP.

(** What [Checkout.processPayment] leaves behind, for any console: the answer
    of [checkout], and one line when the answer is [true]. *)
Lemma Checkout_processPayment_result k (self : fields k) amount out :
  exists text n,
    @Checkout.processPayment (fields k) (method k) amount self out =
      match checkout k amount with
      | Return true => (Return true, self, out ++ [MsgNum text n])
      | other => (other, self, out)
      end.
Proof.
  destruct k; simpl in self |- *;
    rewrite ?checkout_CreditCard, ?checkout_UPI, ?checkout_PayPal, ?checkout_Bitcoin;
    unfold Checkout.processPayment, PaymentProcessor.process; simpl;
    unfold CreditCardPayment.validatePayment, PayPalPayment.validatePayment,
      UPIPayment.validatePayment, BitcoinPayment.validatePayment; js.
  - destruct (num_gt amount 0 && num_le amount 10000);
      [do 2 eexists; reflexivity | exists EmptyString, 0; reflexivity].
  - destruct (num_gt amount 0);
      [do 2 eexists; reflexivity | exists EmptyString, 0; reflexivity].
  - destruct (num_gt amount 0 && num_le amount 100000);
      [do 2 eexists; reflexivity | exists EmptyString, 0; reflexivity].
  - destruct (num_gt amount 0);
      [do 2 eexists; reflexivity | exists EmptyString, 0; reflexivity].
Qed.

End CheckoutFacts.

(** X1. In the Open/Closed listing a payment is processed only after it was
    validated: for every kind, an amount that is positive and within the
    kind's limit makes the checkout return [true] and print exactly one line,
    and any other amount makes it return [false] with the payment object and
    the console left as they were. *)
Theorem Checkout_processes_only_valid_payments
    (k : OCP.Kind) (self : OCP.fields k) (amount : number) (out : Console) :
  (0 < amount /\ OCP.within_ceiling k amount ->
   exists text n,
     @OCP.Checkout.processPayment (OCP.fields k) (OCP.method k) amount self out
     = (Return true, self, out ++ [MsgNum text n])) /\
  (~ (0 < amount /\ OCP.within_ceiling k amount) ->
   @OCP.Checkout.processPayment (OCP.fields k) (OCP.method k) amount self out
   = (Return false, self, out)).
Proof.
  destruct (Checkout_processPayment_result k self amount out) as (text & n & E).
  split; intro H.
  - apply checkout_accepts_iff in H. rewrite H in E. now exists text, n.
  - apply checkout_rejects in H. now rewrite H in E.
Qed.

Lemma Checkout_processes_only_valid_payments_witness :
  (exists text n,
     @OCP.Checkout.processPayment OCP.UPIPayment.t OCP.UPI_PaymentMethod
       500 OCP.UPIPayment.new []
     = (Return true, OCP.UPIPayment.new, [MsgNum text n])) /\
  @OCP.Checkout.processPayment OCP.CreditCardPayment.t OCP.CreditCard_PaymentMethod
    10001 OCP.CreditCardPayment.new []
  = (Return false, OCP.CreditCardPayment.new, []).
Proof.
  split.
  - apply (proj1 (Checkout_processes_only_valid_payments OCP.UPI OCP.UPIPayment.new 500 [])).
    split; [reflexivity | discriminate].
  - apply (proj2 (Checkout_processes_only_valid_payments
                    OCP.CreditCard OCP.CreditCardPayment.new 10001 [])).
    intros [_ H]. apply H. reflexivity.
Defined.

(** X2. The kinds of the Open/Closed listing accept nested sets of amounts:
    what a credit card accepts UPI accepts, what UPI accepts PayPal accepts,
    and PayPal and Bitcoin accept the same amounts. *)
Theorem accepted_amounts_are_nested (amount : number) :
  (OCP.checkout OCP.CreditCard amount = Return true ->
   OCP.checkout OCP.UPI amount = Return true) /\
  (OCP.checkout OCP.UPI amount = Return true ->
   OCP.checkout OCP.PayPal amount = Return true) /\
  OCP.checkout OCP.PayPal amount = OCP.checkout OCP.Bitcoin amount.
Proof.
  split; [| split].
  - intro H. apply checkout_accepts_iff in H as [Hpos Hlim].
    apply checkout_accepts_iff. split; [exact Hpos |].
    unfold OCP.within_ceiling in *. simpl in *. lra.
  - intro H. apply checkout_accepts_iff in H as [Hpos _].
    apply checkout_accepts_iff. split; [exact Hpos | exact I].
  - now rewrite checkout_PayPal, checkout_Bitcoin.
Qed.

Lemma accepted_amounts_are_nested_witness :
  OCP.checkout OCP.UPI 10000 = Return true /\
  OCP.checkout OCP.PayPal 100000 = Return true.
Proof.
  split.
  - apply (proj1 (accepted_amounts_are_nested 10000)). reflexivity.
  - apply (proj1 (proj2 (accepted_amounts_are_nested 100000))). reflexivity.
Defined.

(** ** The checkout that branches on a type name *)

(** X3. The checkout of the listing that violates the Open/Closed principle
    checks the type name and nothing else: for "CC", "PayPal" and "UPI" it
    prints one line carrying the amount, whatever the amount (zero and
    negative amounts included), and for every other type name it returns
    having printed nothing. *)
Theorem branching_checkout_ignores_unknown_types
    (type : string) (amount : number)
    (self : NonOCP.Checkout.t) (out : Console) :
  (type = "CC" \/ type = "PayPal" \/ type = "UPI" ->
   exists text,
     NonOCP.Checkout.processPayment type amount self out
     = (Return tt, self, out ++ [MsgNum text amount])) /\
  (type <> "CC" -> type <> "PayPal" -> type <> "UPI" ->
   NonOCP.Checkout.processPayment type amount self out = (Return tt, self, out)).
Proof.
  split.
  - intros [-> | [-> | ->]]; eexists; reflexivity.
  - intros H1 H2 H3. apply String.eqb_neq in H1, H2, H3.
    unfold NonOCP.Checkout.processPayment. now rewrite H1, H2, H3.
Qed.

Lemma branching_checkout_ignores_unknown_types_witness :
  (exists text,
     NonOCP.Checkout.processPayment "UPI" (-5) NonOCP.Checkout.new []
     = (Return tt, NonOCP.Checkout.new, [MsgNum text (-5)])) /\
  NonOCP.Checkout.processPayment "Bitcoin" 100 NonOCP.Checkout.new []
  = (Return tt, NonOCP.Checkout.new, []).
Proof.
  split.
  - apply (proj1 (branching_checkout_ignores_unknown_types
                    "UPI" (-5) NonOCP.Checkout.new [])).
    right. right. reflexivity.
  - apply (proj2 (branching_checkout_ignores_unknown_types
                    "Bitcoin" 100 NonOCP.Checkout.new [])); discriminate.
Defined.

(** ** The gift card of the listing that violates the Liskov principle *)

Section ViolatingGiftCard.
Import LSPViolation.

Lemma violating_processPayment_short (self : GiftCardPayment.t) amount out :
  GiftCardPayment.balance self < amount ->
  GiftCardPayment.processPayment amount self out =
    (Throw "Insufficient gift card balance!", self, out).
Proof.
  intro H. apply num_gt_true in H. unfold GiftCardPayment.processPayment. js.
  now rewrite H.
Qed.

Lemma violating_processPayment_debit (self : GiftCardPayment.t) amount out :
  amount <= GiftCardPayment.balance self ->
  GiftCardPayment.processPayment amount self out =
    (Return true,
     {| GiftCardPayment.balance := GiftCardPayment.balance self - amount |},
     out ++ [MsgNum "Processing gift card payment: $" amount]).
Proof.
  intro H. apply num_gt_false in H. unfold GiftCardPayment.processPayment. js.
  now rewrite H.
Qed.

Lemma violating_processWithRefund_short (self : GiftCardPayment.t) amount out :
  GiftCardPayment.balance self < amount ->
  @PaymentProcessor.processWithRefund _ GiftCard_PaymentMethod amount self out =
    (Throw "Insufficient gift card balance!", self, out).
Proof.
  intro H. unfold PaymentProcessor.processWithRefund. simpl processPayment.
  unfold bind at 1. now rewrite violating_processPayment_short.
Qed.

Lemma violating_processWithRefund_debit (self : GiftCardPayment.t) amount out :
  amount <= GiftCardPayment.balance self ->
  @PaymentProcessor.processWithRefund _ GiftCard_PaymentMethod amount self out =
    (Return tt,
     {| GiftCardPayment.balance := GiftCardPayment.balance self - amount |},
     (((out ++ [MsgNum "Processing gift card payment: $" amount])
         ++ [Msg "Payment successful"])
        ++ [MsgNum "Refunding $" (amount * 0.1)])
       ++ [MsgNum "Fees: $" (amount * 0.03)]).
Proof.
  intro H. unfold PaymentProcessor.processWithRefund. simpl processPayment.
  unfold bind at 1. now rewrite violating_processPayment_debit.
Qed.

End ViolatingGiftCard.

(** X4. In the listing that violates the Liskov principle, [processWithRefund]
    on a gift card throws when the amount exceeds the balance, leaving the
    card and the console untouched; when the amount does not exceed the
    balance it returns and the balance has gone down by the whole amount: the
    refund of a tenth that it prints is not credited to the card. *)
Theorem violating_gift_card_is_debited_in_full
    (self : LSPViolation.GiftCardPayment.t) (amount : number) (out : Console) :
  (LSPViolation.GiftCardPayment.balance self < amount ->
   @LSPViolation.PaymentProcessor.processWithRefund
     _ LSPViolation.GiftCard_PaymentMethod amount self out
   = (Throw "Insufficient gift card balance!", self, out)) /\
  (amount <= LSPViolation.GiftCardPayment.balance self ->
   completion (@LSPViolation.PaymentProcessor.processWithRefund
                 _ LSPViolation.GiftCard_PaymentMethod amount self out)
   = Return tt /\
   In (MsgNum "Refunding $" (amount * 0.1))
      (printed (@LSPViolation.PaymentProcessor.processWithRefund
                  _ LSPViolation.GiftCard_PaymentMethod amount self out)) /\
   LSPViolation.GiftCardPayment.balance
     (receiver (@LSPViolation.PaymentProcessor.processWithRefund
                  _ LSPViolation.GiftCard_PaymentMethod amount self out))
   = LSPViolation.GiftCardPayment.balance self - amount).
Proof.
  split; [apply violating_processWithRefund_short |].
  intro H. rewrite (violating_processWithRefund_debit self amount out H).
  split; [reflexivity |]. split; [| reflexivity].
  unfold printed. simpl. rewrite !in_app_iff. left. right. now left.
Qed.

Lemma violating_gift_card_is_debited_in_full_witness :
  LSPViolation.GiftCardPayment.balance
    (receiver (@LSPViolation.PaymentProcessor.processWithRefund
                 _ LSPViolation.GiftCard_PaymentMethod
                 400 LSPViolation.GiftCardPayment.new []))
  = 1000 - 400 /\
  @LSPViolation.PaymentProcessor.processWithRefund
    _ LSPViolation.GiftCard_PaymentMethod 1500 LSPViolation.GiftCardPayment.new []
  = (Throw "Insufficient gift card balance!", LSPViolation.GiftCardPayment.new, []).
Proof.
  destruct (violating_gift_card_is_debited_in_full LSPViolation.GiftCardPayment.new 400 [])
    as (_ & Hdebit).
  destruct (violating_gift_card_is_debited_in_full LSPViolation.GiftCardPayment.new 1500 [])
    as (Hshort & _).
  split.
  - apply Hdebit. discriminate.
  - apply Hshort. reflexivity.
Defined.



(** ** Accounts of a series of requests *)

Section AccountsFacts.
Import LSP.
Import Accounts.

(** A series of requests on a gift card returns, and shows no fee. *)
Lemma serve_all_GiftCard_fees rs self out :
  exists bs self1 out1,
    serve_all GiftCard_members rs self out = (Return bs, self1, out1) /\
    fees_reported out1 = fees_reported out.
Proof.
  revert self out. induction rs as [| r rs IH]; intros self out.
  - now exists [], self, out.
  - rewrite serve_all_cons. destruct r as [amount | amount]; simpl serve.
    + rewrite processPayment_GiftCard.
      destruct (num_le amount 0 || num_gt amount (GiftCardPayment.balance self)).
      * destruct (IH self out) as (bs & s & o & E & Hf). rewrite E.
        now exists (false :: bs), s, o.
      * match goal with
        | |- context [serve_all GiftCard_members rs ?s0 ?o0] =>
            destruct (IH s0 o0) as (bs & s & o & E & Hf)
        end. rewrite E. exists (true :: bs), s, o. split; [reflexivity |].
        rewrite Hf, !fees_reported_app. simpl. now rewrite !app_nil_r.
    + rewrite processRefund_GiftCard.
      match goal with
      | |- context [serve_all GiftCard_members rs ?s0 ?o0] =>
          destruct (IH s0 o0) as (bs & s & o & E & Hf)
      end. rewrite E. exists (true :: bs), s, o. split; [reflexivity |].
      rewrite Hf, fees_reported_app. simpl. now rewrite app_nil_r.
Qed.

Lemma serve_all_CreditCard_fees rs self out :
  serve_all CreditCard_members rs self out =
    (Return (map (fun _ => true) rs), self,
     printed (serve_all CreditCard_members rs self out)) /\
  fees_reported (printed (serve_all CreditCard_members rs self out))
  = fees_reported out ++ fees_due rs.
Proof.
  revert self out. induction rs as [| r rs IH]; intros self out.
  - split; [reflexivity |]. simpl. now rewrite app_nil_r.
  - rewrite serve_all_cons.
    destruct r as [amount | amount]; simpl serve;
      rewrite ?processPayment_CreditCard, ?processRefund_CreditCard;
      match goal with
      | |- context [serve_all CreditCard_members rs self ?o] =>
          destruct (IH self o) as [E Hf]; rewrite E
      end; unfold printed in *; simpl snd in *; (split; [reflexivity |]);
      rewrite Hf, !fees_reported_app; simpl; rewrite ?app_nil_r, <- ?app_assoc;
      reflexivity.
Qed.

Lemma serve_all_Cash_fees rs self out :
  completion (serve_all Cash_members rs self out)
  = Return (map (fun r => match r with Pay _ => true | Refund _ => false end) rs) /\
  fees_reported (printed (serve_all Cash_members rs self out)) = fees_reported out.
Proof.
  revert self out. induction rs as [| r rs IH]; intros self out.
  - split; reflexivity.
  - rewrite serve_all_cons.
    destruct r as [amount | amount]; simpl serve.
    + rewrite processPayment_Cash.
      match goal with
      | |- context [serve_all Cash_members rs self ?o] =>
          destruct (IH self o) as [E Hf];
          destruct (serve_all Cash_members rs self o) as [[c s] o']
      end. unfold completion, printed in *. cbn [fst snd] in *. subst c.
      cbn [fst snd].
      split; [reflexivity |]. rewrite Hf, !fees_reported_app. simpl.
      now rewrite !app_nil_r.
    + change (PaymentProcessor.processRefund Cash_members amount self out)
        with (Return false, self, out ++ [Msg "Cash payments are not refundable"]).
      cbv beta iota.
      match goal with
      | |- context [serve_all Cash_members rs self ?o] =>
          destruct (IH self o) as [E Hf];
          destruct (serve_all Cash_members rs self o) as [[c s] o']
      end. unfold completion, printed in *. cbn [fst snd] in *. subst c.
      cbn [fst snd].
      split; [reflexivity |]. rewrite Hf, fees_reported_app. simpl.
      now rewrite app_nil_r.
Qed.

End AccountsFacts.

(** X9. The credit card accepts every request, whatever the amount, and is
    shown a fee of 3% for each payment and none for a refund: over a series
    of requests the fees on the console are those that were there, followed
    by 3% of each payment in order. *)
Theorem credit_card_fees_follow_payments
    (rs : list LSP.Request) (self : LSP.CreditCardPayment.t) (out : Console) :
  completion (LSP.serve_all LSP.CreditCard_members rs self out)
  = Return (map (fun _ => true) rs) /\
  LSP.fees_reported (printed (LSP.serve_all LSP.CreditCard_members rs self out))
  = LSP.fees_reported out ++ Accounts.fees_due rs.
Proof.
  destruct (serve_all_CreditCard_fees rs self out) as [E Hf].
  split; [now rewrite E | exact Hf].
Qed.

(** X10. A class without a [calculateFees] member is never shown a fee: over
    any series of payments and refunds on cash or on a gift card the fees on
    the console stay those that were there before; and cash is answered
    [true] to every payment and [false] to every refund, whatever came
    before. *)
Theorem no_fee_over_any_series :
  (forall (rs : list LSP.Request) (self : LSP.CashPayment.t) (out : Console),
      completion (LSP.serve_all LSP.Cash_members rs self out)
      = Return (map (fun r => match r with
                              | LSP.Pay _ => true
                              | LSP.Refund _ => false
                              end) rs) /\
      LSP.fees_reported (printed (LSP.serve_all LSP.Cash_members rs self out))
      = LSP.fees_reported out) /\
  (forall (rs : list LSP.Request) (self : LSP.GiftCardPayment.t) (out : Console),
      LSP.fees_reported (printed (LSP.serve_all LSP.GiftCard_members rs self out))
      = LSP.fees_reported out).
Proof.
  split.
  - apply serve_all_Cash_fees.
  - intros rs self out.
    destruct (serve_all_GiftCard_fees rs self out) as (bs & s & o & E & Hf).
    now rewrite E.
Qed.

(** ** The validators *)

Section ValidatorFacts.
Import Validators.

Lemma length_positive input : num_gt (length input) 0 = true <-> input <> "".
Proof.
  rewrite num_gt_true. unfold length. destruct input as [| c rest].
  - split; [intro H; discriminate H | intro H; now elim H].
  - split; [discriminate |]. intros _. unfold Qlt. simpl. lia.
Qed.

Lemma length_above (n : nat) input :
  num_gt (length input) (inject_Z (Z.of_nat n)) = true <-> (n < String.length input)%nat.
Proof.
  rewrite num_gt_true. unfold length. rewrite <- Zlt_Qlt. lia.
Qed.

Lemma includes_at input :
  includes input "@" = true <-> In "@"%char (list_ascii_of_string input).
Proof.
  induction input as [| c rest IH].
  - simpl. split; [discriminate | tauto].
  - cbn [includes list_ascii_of_string In]. rewrite orb_true_iff, IH.
    cbn [String.prefix]. destruct (Ascii.ascii_dec "@" c) as [<- | Hne].
    + destruct rest; simpl; tauto.
    + split; [intros [H | H]; [discriminate | now right] |].
      intros [H | H]; [now elim Hne | now right].
Qed.

Lemma includes_at_nonempty input : includes input "@" = true -> input <> "".
Proof. destruct input; [discriminate | discriminate]. Qed.

End ValidatorFacts.

(** X11. The [EmailValidator] marked "Bad" accepts exactly the inputs that
    contain an [@] and are more than five characters long. Whatever it
    accepts [BaseValidator] accepts, and not the other way round: it rejects
    non-empty inputs that the base class accepts. *)
Theorem bad_EmailValidator_narrows_BaseValidator :
  (forall input,
      Validators.Bad.EmailValidator.validate input = true <->
      In "@"%char (list_ascii_of_string input) /\ (5 < String.length input)%nat) /\
  (forall input,
      Validators.Bad.EmailValidator.validate input = true ->
      Validators.BaseValidator.validate input = true) /\
  (exists input,
      Validators.BaseValidator.validate input = true /\
      Validators.Bad.EmailValidator.validate input = false).
Proof.
  split; [| split].
  - intro input. unfold Validators.Bad.EmailValidator.validate.
    rewrite andb_true_iff, includes_at.
    change 5 with (inject_Z (Z.of_nat 5)). now rewrite length_above.
  - intros input H. unfold Validators.Bad.EmailValidator.validate in H.
    apply andb_true_iff in H as [H _].
    apply length_positive. now apply includes_at_nonempty.
  - exists "a@b". split; reflexivity.
Qed.

(** X12. In the [EmailValidator] marked "Good" the length test adds nothing:
    [validate] answers as [isValidEmail] does, that is, it accepts exactly
    the inputs that contain an [@]. It accepts whatever the "Bad" one
    accepted, and it is still narrower than [BaseValidator]: what it accepts
    the base class accepts, and it rejects non-empty inputs that the base
    class accepts. *)
Theorem good_EmailValidator_accepts_inputs_with_at :
  (forall input,
      Validators.Good.EmailValidator.validate input
      = Validators.Good.EmailValidator.isValidEmail input) /\
  (forall input,
      Validators.Good.EmailValidator.validate input = true <->
      In "@"%char (list_ascii_of_string input)) /\
  (forall input,
      Validators.Bad.EmailValidator.validate input = true ->
      Validators.Good.EmailValidator.validate input = true) /\
  (forall input,
      Validators.Good.EmailValidator.validate input = true ->
      Validators.BaseValidator.validate input = true) /\
  (exists input,
      Validators.BaseValidator.validate input = true /\
      Validators.Good.EmailValidator.validate input = false).
Proof.
  assert (Hsame : forall input,
             Validators.Good.EmailValidator.validate input
             = Validators.Good.EmailValidator.isValidEmail input).
  { intro input. unfold Validators.Good.EmailValidator.validate,
      Validators.Good.EmailValidator.isValidEmail.
    destruct (Validators.includes input "@") eqn:E; [| apply andb_false_r].
    rewrite andb_true_r. apply length_positive. now apply includes_at_nonempty. }
  split; [exact Hsame |]. split; [| split; [| split]].
  - intro input. rewrite Hsame. apply includes_at.
  - intros input H. unfold Validators.Bad.EmailValidator.validate in H.
    apply andb_true_iff in H as [H _]. now rewrite Hsame.
  - intros input H. unfold Validators.Good.EmailValidator.validate in H.
    now apply andb_true_iff in H as [H _].
  - exists "hello". split; reflexivity.
Qed.

(** * The gift card over binary64 numbers *)

(** ** Signs of rounded sums and differences

    What the balance invariant needs of binary64 arithmetic, from the
    specification of the primitive operations: the sum of two numbers that
    are not negative is not negative, and neither is [x - y] when [y] is
    positive, finite and no greater than [x]. *)

Section Rounding.
Local Open Scope Z_scope.
Variables prec emax : Z.

Lemma shr_1_nonneg mrs : 0 <= shr_m mrs -> 0 <= shr_m (shr_1 mrs).
Proof.
  destruct mrs as [m r s]. simpl. intro H.
  destruct m as [| [p | p |] | p]; simpl; lia.
Qed.

Lemma iter_pos_shr_1_nonneg p : forall mrs,
  0 <= shr_m mrs -> 0 <= shr_m (SpecFloat.iter_pos shr_1 p mrs).
Proof.
  induction p as [p IH | p IH |]; intros mrs H; simpl.
  - apply IH, IH. now apply shr_1_nonneg.
  - now apply IH, IH.
  - now apply shr_1_nonneg.
Qed.

Lemma shr_fexp_nonneg m e l :
  0 <= m -> 0 <= shr_m (fst (shr_fexp prec emax m e l)).
Proof.
  intro H. unfold shr_fexp, shr.
  assert (H0 : 0 <= shr_m (shr_record_of_loc m l)).
  { destruct l as [| []]; exact H. }
  destruct (fexp prec emax (Zdigits2 m + e) - e); simpl; try exact H0.
  now apply iter_pos_shr_1_nonneg.
Qed.

Lemma round_nearest_even_nonneg m l : 0 <= m -> 0 <= round_nearest_even m l.
Proof.
  intro H. destruct l as [| []]; simpl; try lia.
  destruct (Z.even m); lia.
Qed.

(** Rounding a mantissa that is not negative never yields a negative number
    or NaN. *)
Lemma binary_round_aux_nonneg m e l :
  0 <= m -> SFnonneg (binary_round_aux prec emax false m e l) = true.
Proof.
  intro H. unfold binary_round_aux.
  pose proof (shr_fexp_nonneg m e l H) as H1.
  destruct (shr_fexp prec emax m e l) as [mrs1 e1]. simpl in H1.
  pose proof (shr_fexp_nonneg _ e1 loc_Exact
                (round_nearest_even_nonneg _ (loc_of_shr_record mrs1) H1)) as H2.
  destruct (shr_fexp prec emax _ e1 loc_Exact) as [mrs2 e2]. simpl in H2.
  destruct (shr_m mrs2) as [| p | p]; try lia; try reflexivity.
  now destruct (e2 <=? emax - prec).
Qed.

Lemma binary_normalize_nonneg m e :
  0 <= m -> SFnonneg (binary_normalize prec emax m e false) = true.
Proof.
  intro H. destruct m as [| p | p]; try lia; [reflexivity |].
  unfold binary_normalize, binary_round.
  destruct (shl_align p e _) as [mz ez]. now apply binary_round_aux_nonneg.
Qed.

End Rounding.

Section Mantissas.
Local Open Scope Z_scope.

Lemma digits2_pos_bounds m :
  2 ^ (Zpos (digits2_pos m) - 1) <= Zpos m < 2 ^ Zpos (digits2_pos m).
Proof.
  induction m as [p IH | p IH |]; simpl digits2_pos.
  - rewrite Pos2Z.inj_succ.
    replace (Z.succ (Zpos (digits2_pos p)) - 1)
      with (Z.succ (Zpos (digits2_pos p) - 1)) by lia.
    rewrite !Z.pow_succ_r by lia. lia.
  - rewrite Pos2Z.inj_succ.
    replace (Z.succ (Zpos (digits2_pos p)) - 1)
      with (Z.succ (Zpos (digits2_pos p) - 1)) by lia.
    rewrite !Z.pow_succ_r by lia. lia.
  - simpl. lia.
Qed.

Lemma iter_xO m d : Zpos (Pos.iter xO m d) = Zpos m * 2 ^ Zpos d.
Proof.
  induction d as [| d IH] using Pos.peano_ind.
  - simpl. lia.
  - rewrite Pos.iter_succ, Pos2Z.inj_succ, Z.pow_succ_r by lia.
    rewrite Pos2Z.inj_xO, IH. lia.
Qed.

Lemma shl_align_fst m e ez :
  ez <= e -> Zpos (fst (shl_align m e ez)) = Zpos m * 2 ^ (e - ez).
Proof.
  intro H. unfold shl_align.
  destruct (ez - e) as [| d | d] eqn:E; cbn [fst]; try lia.
  - replace (e - ez) with 0 by lia. rewrite Z.pow_0_r. lia.
  - rewrite iter_xO. f_equal. f_equal. lia.
Qed.

(** The mantissa of a binary64 number has at most 53 digits, and exactly 53
    above the least exponent. *)
Lemma bounded_digits m e :
  bounded FloatOps.prec FloatOps.emax m e = true ->
  Zpos (digits2_pos m) <= 53 /\ -1074 <= e /\
  (-1074 < e -> Zpos (digits2_pos m) = 53).
Proof.
  unfold bounded, canonical_mantissa, fexp, FloatOps.prec, FloatOps.emax, emin.
  intro H. apply andb_true_iff in H as [H _]. apply Z.eqb_eq in H. lia.
Qed.

(** Of two positive binary64 numbers, one that is not below the other has
    the greater mantissa once both are brought to the same exponent. *)
Lemma compare_aligned mb eb ma ea :
  bounded FloatOps.prec FloatOps.emax mb eb = true ->
  bounded FloatOps.prec FloatOps.emax ma ea = true ->
  SFltb (S754_finite false mb eb) (S754_finite false ma ea) = false ->
  Zpos (fst (shl_align ma ea (Z.min eb ea)))
  <= Zpos (fst (shl_align mb eb (Z.min eb ea))).
Proof.
  intros Hb Ha Hlt.
  apply bounded_digits in Hb as (Hb1 & Hb2 & Hb3).
  apply bounded_digits in Ha as (Ha1 & Ha2 & Ha3).
  pose proof (digits2_pos_bounds mb) as Db. pose proof (digits2_pos_bounds ma) as Da.
  rewrite !shl_align_fst by lia.
  unfold SFltb, SFcompare in Hlt.
  destruct (Z.compare_spec eb ea) as [E | E | E]; try discriminate.
  - subst ea. rewrite Z.min_id, Z.sub_diag. simpl Z.pow.
    change (Pos.compare_cont Eq mb ma) with (Pos.compare mb ma) in Hlt.
    destruct (Pos.compare_spec mb ma); try discriminate; lia.
  - rewrite Z.min_r by lia. rewrite Z.sub_diag. simpl (2 ^ 0).
    rewrite (Hb3 ltac:(lia)) in Db.
    assert (Hp : 2 * 1 <= 2 ^ (eb - ea)).
    { replace (eb - ea) with (Z.succ (eb - ea - 1)) by lia.
      rewrite Z.pow_succ_r by lia.
      assert (0 < 2 ^ (eb - ea - 1)) by (apply Z.pow_pos_nonneg; lia). lia. }
    assert (Hma : Zpos ma < 2 ^ 53).
    { eapply Z.lt_le_trans; [apply Da |]. apply Z.pow_le_mono_r; lia. }
    change (53 - 1) with 52 in Db.
    assert (H52 : 2 ^ 53 = 2 * 2 ^ 52) by reflexivity.
    nia.
Qed.

Lemma SFadd_nonneg x y :
  SFnonneg x = true -> SFnonneg y = true -> SFnonneg (SF64add x y) = true.
Proof.
  destruct x as [sx | sx | | sx mx ex]; destruct y as [sy | sy | | sy my ey];
    try discriminate;
    try destruct sx; try destruct sy; try discriminate; try reflexivity.
  intros _ _. unfold SF64add, SFadd. apply binary_normalize_nonneg.
  unfold cond_Zopp. lia.
Qed.

Lemma SFsub_nonneg x y :
  valid_binary x = true -> valid_binary y = true ->
  SFnonneg x = true ->
  SFltb x y = false ->
  SFltb y (S754_infinity false) = true ->
  SFnonneg (SF64sub x y) = true.
Proof.
  intros Vx Vy.
  destruct x as [sx | sx | | sx mx ex]; destruct y as [sy | sy | | sy my ey];
    try discriminate;
    try destruct sx; try destruct sy; try discriminate; try reflexivity.
  - intros _ _ _. unfold SF64sub, SFsub. apply binary_normalize_nonneg.
    unfold cond_Zopp. lia.
  - intros _ Hlt _. unfold SF64sub, SFsub. apply binary_normalize_nonneg.
    pose proof (compare_aligned mx ex my ey Vx Vy Hlt). unfold cond_Zopp. lia.
Qed.

End Mantissas.

Section Binary64Facts.
Import Binary64.

Lemma Prim2SF_zero : Prim2SF 0%float = S754_zero false.
Proof. reflexivity. Qed.

Lemma Prim2SF_infinity : Prim2SF infinity = S754_infinity false.
Proof. reflexivity. Qed.

Lemma add_nonneg (x y : number) :
  num_le 0%float x = true -> num_le 0%float y = true ->
  num_le 0%float (PrimFloat.add x y) = true.
Proof.
  unfold num_le. rewrite !leb_spec, add_spec, Prim2SF_zero. apply SFadd_nonneg.
Qed.

Lemma sub_nonneg (x y : number) :
  num_le 0%float x = true -> num_gt y x = false ->
  PrimFloat.ltb y infinity = true ->
  num_le 0%float (PrimFloat.sub x y) = true.
Proof.
  unfold num_le, num_gt.
  rewrite !leb_spec, !ltb_spec, sub_spec, Prim2SF_zero, Prim2SF_infinity.
  apply SFsub_nonneg; apply Prim2SF_valid.
Qed.

Lemma Prim2SF_nan : Prim2SF nan = S754_nan.
Proof. reflexivity. Qed.

(** NaN is greater than nothing, and nothing less NaN is NaN. *)
Lemma num_gt_nan (x : number) : num_gt nan x = false.
Proof.
  unfold num_gt. rewrite ltb_spec, Prim2SF_nan. unfold SFltb.
  now destruct (Prim2SF x).
Qed.

Lemma sub_nan (x : number) : PrimFloat.sub x nan = nan.
Proof.
  apply Prim2SF_inj. rewrite sub_spec, Prim2SF_nan. unfold SF64sub.
  now destruct (Prim2SF x).
Qed.

Lemma add_nan (x : number) : PrimFloat.add x nan = nan.
Proof.
  apply Prim2SF_inj. rewrite add_spec, Prim2SF_nan. unfold SF64add.
  now destruct (Prim2SF x).
Qed.

(** One admissible call keeps a balance that is not negative so. *)
Lemma call_nonneg c self out :
  num_le 0%float (GiftCardPayment.balance self) = true -> admissible c ->
  num_le 0%float (GiftCardPayment.balance (card (call c self out))) = true.
Proof.
  intros Hb Hc. destruct c as [amount | amount]; simpl in *.
  - unfold GiftCardPayment.processPayment.
    destruct (num_le amount 0%float) eqn:E0; [exact Hb |].
    destruct (num_gt amount (GiftCardPayment.balance self)) eqn:E1; [exact Hb |].
    unfold card. simpl. now apply sub_nonneg.
  - unfold card. simpl. now apply add_nonneg.
Qed.

Lemma call_all_cons c cs self out :
  call_all (c :: cs) self out =
    (fst (fst (call c self out))
       :: fst (fst (call_all cs (card (call c self out)) (snd (call c self out)))),
     card (call_all cs (card (call c self out)) (snd (call c self out))),
     snd (call_all cs (card (call c self out)) (snd (call c self out)))).
Proof.
  simpl. destruct (call c self out) as [[r self1] out1]. unfold card. simpl.
  now destruct (call_all cs self1 out1) as [[rs self2] out2].
Qed.

Lemma call_all_nonneg cs : forall self out,
  num_le 0%float (GiftCardPayment.balance self) = true -> Forall admissible cs ->
  num_le 0%float (GiftCardPayment.balance (card (call_all cs self out))) = true.
Proof.
  induction cs as [| c cs IH]; intros self out Hb Hcs.
  - exact Hb.
  - inversion Hcs as [| ? ? Hc Hcs']; subst.
    rewrite call_all_cons. unfold card at 1. cbn [fst snd].
    apply IH; [| exact Hcs']. now apply call_nonneg.
Qed.

End Binary64Facts.

(** C3, as the design document words it, fails: a refund of -2000 on a new
    gift card returns [true] and leaves a balance of -1000. *)
Lemma negative_refund_overdraws :
  Binary64.call_all [Binary64.Refund (-2000)%float] Binary64.GiftCardPayment.new []
  = ([Return true],
     {| Binary64.GiftCardPayment.balance := (-1000)%float |},
     [Binary64.MsgNum "Gift card refund: $" (-2000)%float]) /\
  PrimFloat.ltb (-1000)%float 0%float = true.
Proof. split; reflexivity. Qed.

(** C3, amended. A payment of more than the balance is refused, with [false]
    returned and the gift card unchanged; and a gift card whose balance is
    not negative keeps a balance that is not negative through every series
    of payments of amounts below [Infinity] (NaN and [Infinity] are not) and
    of refunds of amounts that are not negative (NaN is not), rounding
    included. *)
Theorem GiftCard_balance_stays_nonnegative :
  (forall (self : Binary64.GiftCardPayment.t) (amount : Binary64.number)
          (out : Binary64.Console),
      Binary64.num_gt amount (Binary64.GiftCardPayment.balance self) = true ->
      Binary64.GiftCardPayment.processPayment amount self out = (Return false, self, out)) /\
  (forall (cs : list Binary64.Call) (self : Binary64.GiftCardPayment.t)
          (out : Binary64.Console),
      Binary64.num_le 0%float (Binary64.GiftCardPayment.balance self) = true ->
      Forall Binary64.admissible cs ->
      Binary64.num_le 0%float
        (Binary64.GiftCardPayment.balance (Binary64.card (Binary64.call_all cs self out)))
      = true).
Proof.
  split.
  - intros self amount out H. unfold Binary64.GiftCardPayment.processPayment.
    rewrite H. now destruct (Binary64.num_le amount 0%float).
  - intros cs self out. apply call_all_nonneg.
Qed.

Lemma GiftCard_balance_stays_nonnegative_witness :
  Binary64.GiftCardPayment.processPayment 1500%float Binary64.GiftCardPayment.new []
  = (Return false, Binary64.GiftCardPayment.new, []) /\
  Binary64.num_le 0%float
    (Binary64.GiftCardPayment.balance
       (Binary64.card
          (Binary64.call_all
             [Binary64.ProcessPayment 400%float; Binary64.Refund 400%float;
              Binary64.ProcessPayment 1000%float; Binary64.ProcessPayment 1%float]
             Binary64.GiftCardPayment.new [])))
  = true.
Proof.
  destruct GiftCard_balance_stays_nonnegative as [Hshort Hinv].
  split.
  - apply Hshort. reflexivity.
  - apply Hinv.
    + reflexivity.
    + repeat constructor.
Defined.

(** C10, as it is worded, fails on the last clause: a refund of the negative
    amount -2^-60 on a new gift card returns [true] and leaves the balance at
    1000, the sum being rounded back to it; the balance has not decreased. *)
Lemma small_negative_refund_is_absorbed :
  PrimFloat.ltb (-0x1p-60)%float 0%float = true /\
  Binary64.GiftCardPayment.refund (-0x1p-60)%float Binary64.GiftCardPayment.new []
  = (Return true, Binary64.GiftCardPayment.new,
     [Binary64.MsgNum "Gift card refund: $" (-0x1p-60)%float]) /\
  PrimFloat.ltb
    (Binary64.GiftCardPayment.balance
       (Binary64.card
          (Binary64.GiftCardPayment.refund (-0x1p-60)%float Binary64.GiftCardPayment.new [])))
    (Binary64.GiftCardPayment.balance Binary64.GiftCardPayment.new)
  = false.
Proof. split; [| split]; reflexivity. Qed.

(** C10, amended. [GiftCardPayment.refund] takes nothing but an amount,
    checks nothing about it, returns [true] and sets the balance to the
    binary64 sum [balance + amount], for zero, negative amounts, NaN and the
    infinities as for positive amounts; a refund of NaN is accepted like any
    other and leaves the balance NaN, whatever it was. *)
Theorem GiftCard_refund_unchecked :
  (forall (self : Binary64.GiftCardPayment.t) (amount : Binary64.number)
          (out : Binary64.Console),
      Binary64.GiftCardPayment.refund amount self out =
        (Return true,
         {| Binary64.GiftCardPayment.balance :=
              PrimFloat.add (Binary64.GiftCardPayment.balance self) amount |},
         out ++ [Binary64.MsgNum "Gift card refund: $" amount])) /\
  (forall (self : Binary64.GiftCardPayment.t) (out : Binary64.Console),
      Binary64.GiftCardPayment.refund nan self out =
        (Return true, {| Binary64.GiftCardPayment.balance := nan |},
         out ++ [Binary64.MsgNum "Gift card refund: $" nan])).
Proof.
  split.
  - reflexivity.
  - intros self out. unfold Binary64.GiftCardPayment.refund.
    now rewrite add_nan.
Qed.

(** X13. A NaN amount passes both guards of the gift card's [processPayment],
    in the compliant listing as in the violating one, since NaN is neither
    [<= 0] nor [>] any balance: the call returns [true] and leaves the
    balance NaN, whatever it was; that balance is then not [>= 0]. *)
Theorem GiftCard_accepts_a_NaN_payment :
  (forall (self : Binary64.GiftCardPayment.t) (out : Binary64.Console),
      Binary64.GiftCardPayment.processPayment nan self out =
        (Return true, {| Binary64.GiftCardPayment.balance := nan |},
         out ++ [Binary64.MsgNum "Processing gift card payment: $" nan])) /\
  (forall (self : Binary64.LSPViolation.GiftCardPayment.t) (out : Binary64.Console),
      Binary64.LSPViolation.GiftCardPayment.processPayment nan self out =
        (Return true, {| Binary64.LSPViolation.GiftCardPayment.balance := nan |},
         out ++ [Binary64.MsgNum "Processing gift card payment: $" nan])) /\
  Binary64.num_le 0%float nan = false.
Proof.
  split; [| split]; [| | reflexivity].
  - intros self out. unfold Binary64.GiftCardPayment.processPayment.
    change (Binary64.num_le nan 0%float) with false. cbv iota.
    now rewrite num_gt_nan, sub_nan.
  - intros self out. unfold Binary64.LSPViolation.GiftCardPayment.processPayment.
    now rewrite num_gt_nan, sub_nan.
Qed.

(** X14. The gift card of the violating listing, over binary64 numbers:
    [processPayment] throws when the amount exceeds the balance and leaves
    the card and the console untouched; and for every amount below
    [Infinity] (NaN and [Infinity] are not), negative amounts and zero
    included, a balance that was not negative is not negative afterwards. *)
Theorem violating_gift_card_balance_stays_nonnegative
    (self : Binary64.LSPViolation.GiftCardPayment.t) (amount : Binary64.number)
    (out : Binary64.Console) :
  (Binary64.num_gt amount (Binary64.LSPViolation.GiftCardPayment.balance self) = true ->
   Binary64.LSPViolation.GiftCardPayment.processPayment amount self out
   = (Throw "Insufficient gift card balance!", self, out)) /\
  (Binary64.num_le 0%float (Binary64.LSPViolation.GiftCardPayment.balance self) = true ->
   PrimFloat.ltb amount infinity = true ->
   Binary64.num_le 0%float
     (Binary64.LSPViolation.GiftCardPayment.balance
        (snd (fst (Binary64.LSPViolation.GiftCardPayment.processPayment amount self out))))
   = true).
Proof.
  unfold Binary64.LSPViolation.GiftCardPayment.processPayment. split.
  - intro H. now rewrite H.
  - intros Hb Hfin.
    destruct (Binary64.num_gt amount (Binary64.LSPViolation.GiftCardPayment.balance self))
      eqn:E; [exact Hb |].
    simpl. now apply sub_nonneg.
Qed.

Lemma violating_gift_card_balance_stays_nonnegative_witness :
  Binary64.LSPViolation.GiftCardPayment.processPayment
    1500%float Binary64.LSPViolation.GiftCardPayment.new []
  = (Throw "Insufficient gift card balance!", Binary64.LSPViolation.GiftCardPayment.new, []) /\
  Binary64.num_le 0%float
    (Binary64.LSPViolation.GiftCardPayment.balance
       (snd (fst (Binary64.LSPViolation.GiftCardPayment.processPayment
                    (-250)%float Binary64.LSPViolation.GiftCardPayment.new []))))
  = true.
Proof.
  split.
  - apply (proj1 (violating_gift_card_balance_stays_nonnegative
                    Binary64.LSPViolation.GiftCardPayment.new 1500%float [])).
    reflexivity.
  - apply (proj2 (violating_gift_card_balance_stays_nonnegative
                    Binary64.LSPViolation.GiftCardPayment.new (-250)%float []));
      reflexivity.
Defined.
